(** * Peer registration: the POST route handler and [createSignerForUser]

    A shallow embedding of the two TypeScript modules of the modal-login
    application:

    - the route handler [POST], which reads [{orgId, peerId}] from the
      request, looks the user and the API key up, builds a smart-account
      client and submits the [registerPeer] user operation, translating
      failures into HTTP responses;
    - [createSignerForUser], which wraps a user's address in a signer
      whose signing operations are not implemented.

    JavaScript values that cross a boundary unchecked (the parsed request
    body, a caught exception) are modelled dynamically as [JsValue]; values
    returned by typed library calls are modelled by their declared types.
    External calls are nodes of a program tree [Prog]; a [World] answers
    them, either with a value or by throwing. *)

From Stdlib Require Import PrimFloat String List ZArith Bool Lia.
Import ListNotations.
Local Open Scope string_scope.

Set Warnings "-register-all".

(** ** JavaScript values *)

Module Js.

(** The values the code at hand meets: what [JSON.parse] yields,
    [undefined], and error objects by the properties that can be read
    off them. A number is an IEEE 754 double, as in the language. Values
    that [JSON.stringify] refuses (a BigInt, a cyclic object) are not
    among them. *)
Inductive JsValue : Type :=
| Undefined
| Null
| Bool (b : bool)
| Num (f : float)
| Str (s : string)
| Arr (items : list JsValue)
| Obj (fields : list (string * JsValue)).

(** The result of evaluating an expression, calling a function or
    awaiting a promise: a value, or a thrown (rejected) value. *)
Inductive Completion (A : Type) : Type :=
| Returned (a : A)
| Thrown (e : JsValue).
Arguments Returned {A} a.
Arguments Thrown {A} e.

(** ToBoolean. *)
Definition truthy (v : JsValue) : bool :=
  match v with
  | Undefined | Null => false
  | Bool b => b
  | Num f => negb (PrimFloat.is_zero f || PrimFloat.is_nan f)
  | Str s => negb (s =? "")
  | Arr _ | Obj _ => true
  end.

Definition nullish (v : JsValue) : bool :=
  match v with
  | Undefined | Null => true
  | _ => false
  end.

(** [v === s] for a string literal [s]. *)
Definition strict_eq_str (v : JsValue) (s : string) : bool :=
  match v with
  | Str s' => s' =? s
  | _ => false
  end.

Fixpoint lookup (k : string) (fields : list (string * JsValue)) : JsValue :=
  match fields with
  | [] => Undefined
  | (k', v) :: rest => if k =? k' then v else lookup k rest
  end.

(** The value of property [k] of a value that has properties. The keys
    read by the code below ([orgId], [peerId], [name], [details],
    [metaMessages]) are defined on no primitive wrapper and on no array,
    so only objects answer with something else than [undefined]. *)
Definition field (v : JsValue) (k : string) : JsValue :=
  match v with
  | Obj fields => lookup k fields
  | _ => Undefined
  end.

Definition describe (v : JsValue) : string :=
  match v with
  | Null => "null"
  | _ => "undefined"
  end.

Definition new_Error (name message : string) : JsValue :=
  Obj [("name", Str name); ("message", Str message)].

Definition TypeError (message : string) : JsValue :=
  new_Error "TypeError" message.

(** [v.k]: reading a property of [null] or [undefined] throws. *)
Definition get (v : JsValue) (k : string) : Completion JsValue :=
  if nullish v
  then Thrown (TypeError ("Cannot read properties of " ++ describe v
                          ++ " (reading '" ++ k ++ "')"))
  else Returned (field v k).

(** The own keys of an object literal. *)
Definition keys (v : JsValue) : list string :=
  match v with
  | Obj fields => map fst fields
  | _ => []
  end.

Definition is_undefined (v : JsValue) : bool :=
  match v with
  | Undefined => true
  | _ => false
  end.

(** The keys that [JSON.stringify] writes for an object literal: those
    whose value is not [undefined]. *)
Definition written_keys (v : JsValue) : list string :=
  match v with
  | Obj fields =>
      map fst (filter (fun kv => negb (is_undefined (snd kv))) fields)
  | _ => []
  end.

(** An optional string as a value: the string, or [undefined]. *)
Definition or_undefined (x : option string) : JsValue :=
  match x with
  | Some s => Str s
  | None => Undefined
  end.

End Js.
Import Js.

(** ** Types shared with the SDKs *)

Definition Hex := string.

(** [gensynTestnet], the only chain the application uses. *)
Inductive Chain : Type := gensynTestnet.

(** An [AlchemyTransport]; opaque to the application. *)
Record AlchemyTransport : Type := { transport_id : N }.

(** [NextResponse.json(body, { status })], by the body object and the
    status it is given. The body on the wire is the JSON of that object,
    which leaves out the properties whose value is [undefined]
    ([written_keys]). *)
Record NextResponse : Type := { body : JsValue; status : Z }.

Module NextResponse.
Definition json (body : JsValue) (status : Z) : NextResponse :=
  {| body := body; status := status |}.
End NextResponse.

(** ** The store *)

Module Db.

(** [UserData]; the application code at hand reads only [address]. *)
Record UserData : Type := { address : string }.

(** [UserApiKey]; the application code at hand reads only the optional
    [deferredActionDigest]. *)
Record UserApiKey : Type := { deferredActionDigest : option string }.

End Db.
Import Db.

(** ** [createSignerForUser] *)

Module Signer.

(** What the application hands to [toAccount]: an address and the three
    signing functions. Each takes the arguments of the call and settles
    to a signature or rejects. *)
Record CustomSource : Type := {
  source_address : string;
  source_signMessage : list JsValue -> Completion Hex;
  source_signTransaction : list JsValue -> Completion Hex;
  source_signTypedData : list JsValue -> Completion Hex
}.

(** A local account of the SDK. *)
Record LocalAccount : Type := {
  address : string;
  signMessage : list JsValue -> Completion Hex;
  signTransaction : list JsValue -> Completion Hex;
  signTypedData : list JsValue -> Completion Hex;
  source : string;
  type : string
}.

(** The configuration and result of [createWalletClient]. *)
Record WalletClient : Type := {
  account : LocalAccount;
  chain : Chain;
  transport : AlchemyTransport
}.

(** [new WalletClientSigner(client, signerType)]. *)
Record WalletClientSigner : Type := {
  inner : WalletClient;
  signerType : string
}.

(** The errors of the SDK constructors, by name. *)
Definition InvalidAddressError : JsValue :=
  new_Error "InvalidAddressError" "Address is invalid.".

Definition InvalidSignerTypeError : JsValue :=
  new_Error "InvalidSignerTypeError" "Invalid signer type.".

Definition not_implemented : JsValue := new_Error "Error" "Not implemented".

Section WithAddressCheck.

(** The SDK's address check, which [toAccount] applies. *)
Variable isAddress : string -> bool.

(** [toAccount] on a custom source: it refuses an invalid address and
    otherwise keeps the source's address and functions. *)
Definition toAccount (src : CustomSource) : Completion LocalAccount :=
  if isAddress (source_address src)
  then Returned {| address := source_address src;
                   signMessage := source_signMessage src;
                   signTransaction := source_signTransaction src;
                   signTypedData := source_signTypedData src;
                   source := "custom";
                   type := "local" |}
  else Thrown InvalidAddressError.

Definition createWalletClient (account : LocalAccount) (chain : Chain)
    (transport : AlchemyTransport) : WalletClient :=
  {| account := account; chain := chain; transport := transport |}.

(** The constructor refuses an empty signer type. *)
Definition new_WalletClientSigner (client : WalletClient)
    (signerType : string) : Completion WalletClientSigner :=
  if signerType =? ""
  then Thrown InvalidSignerTypeError
  else Returned {| inner := client; signerType := signerType |}.

Definition createSignerForUser (user : UserData)
    (transport : AlchemyTransport) : Completion WalletClientSigner :=
  match
    toAccount
      {| source_address := Db.address user;
         source_signMessage := fun _ => Thrown not_implemented;
         source_signTransaction := fun _ => Thrown not_implemented;
         source_signTypedData := fun _ => Thrown not_implemented |}
  with
  | Thrown e => Thrown e
  | Returned signerAccount =>
    let walletClient :=
      createWalletClient signerAccount gensynTestnet transport in
    new_WalletClientSigner walletClient "custom"
  end.

End WithAddressCheck.

(** The address a signer stands for. *)
Definition signer_address (s : WalletClientSigner) : string :=
  address (account (inner s)).

(** An address check that takes a 0x prefix and forty more characters
    for an address; used for examples only. *)
Definition sample_isAddress (a : string) : bool :=
  (String.length a =? 42)%nat && String.prefix "0x" a.

Definition sample_user : UserData :=
  {| Db.address := "0x00000000000000000000000000000000000000aa" |}.

End Signer.

(** ** The route handler *)

Module Route.

(** *** Data of the application's own modules *)

(** [contract.json]; the handler reads only [abi]. *)
Record ContractJson : Type := { abi : JsValue }.

(** The environment variables the handler reads. *)
Record ProcessEnv : Type := {
  NEXT_PUBLIC_ALCHEMY_API_KEY : option string;
  NEXT_PUBLIC_PAYMASTER_POLICY_ID : option string;
  SMART_CONTRACT_ADDRESS : option string
}.

(** The request, by what [request.json()] settles to. *)
Record Request : Type := { json : Completion JsValue }.

(** *** Objects of the SDKs, opaque to the handler *)

Record WalletClient : Type := { wallet_client_id : N }.
Record WalletClientSigner : Type := { signer_id : N }.
Record ModularAccountV2 : Type := { account_id : N }.
Record SmartAccountClient : Type := { client_id : N }.

(** The result of [client.sendUserOperation]; the handler reads [hash]. *)
Record SendUserOperationResult : Type := { hash : Hex }.

(** The output of [httpRequestErroDetailsStringSchema]:
    [{ data: { revertData } }]. *)
Record ErrorData : Type := { revertData : Hex }.
Record ErrorDetails : Type := { data : ErrorData }.

(** What [safeParse] returns: [{success: true, data}] or
    [{success: false, error}]. *)
Inductive SafeParseResult : Type :=
| success_true (data : ErrorDetails)
| success_false (error : JsValue).

(** The result of [decodeErrorResult]; the handler reads [errorName]. *)
Record DecodedError : Type := { errorName : string }.

(** *** External calls *)

(** One constructor per function the handler calls outside itself, with
    the arguments the handler chooses. *)
Inductive Call : Type :=
| getUser (orgId : JsValue)
| getLatestApiKey (orgId : JsValue)
| alchemy (apiKey : option string)
| createWalletClient (account : string) (chain : Chain)
    (transport : AlchemyTransport)
| new_WalletClientSigner (client : WalletClient) (signerType : string)
| createModularAccountV2 (transport : AlchemyTransport) (chain : Chain)
    (signer : WalletClientSigner) (deferredAction : option string)
| createAlchemySmartAccountClient (account : ModularAccountV2)
    (chain : Chain) (transport : AlchemyTransport)
    (policyId : option string)
| encodeFunctionData (abi : JsValue) (functionName : string)
    (args : list JsValue)
| sendUserOperation (client : SmartAccountClient) (target : option string)
    (data : Hex)
| safeParse (details : JsValue)
| decodeErrorResult (data : Hex) (abi : JsValue).

(** The type of what each call returns when it returns. *)
Definition Ans (c : Call) : Type :=
  match c with
  | getUser _ => option UserData
  | getLatestApiKey _ => option UserApiKey
  | alchemy _ => AlchemyTransport
  | createWalletClient _ _ _ => WalletClient
  | new_WalletClientSigner _ _ => WalletClientSigner
  | createModularAccountV2 _ _ _ _ => ModularAccountV2
  | createAlchemySmartAccountClient _ _ _ _ => SmartAccountClient
  | encodeFunctionData _ _ _ => Hex
  | sendUserOperation _ _ _ => SendUserOperationResult
  | safeParse _ => SafeParseResult
  | decodeErrorResult _ _ => DecodedError
  end.

(** [console.log] writes to the first stream, [console.error] to the
    second. *)
Inductive Stream : Type := Stdout | Stderr.

(** *** Programs *)

(** A computation of the handler: it returns, throws, writes to the
    console and goes on, or calls out and goes on with the answer. *)
Inductive Prog (R : Type) : Type :=
| Ret (r : R)
| Throw (e : JsValue)
| Log (s : Stream) (v : JsValue) (k : Prog R)
| Do (c : Call) (k : Completion (Ans c) -> Prog R).
Arguments Ret {R} r.
Arguments Throw {R} e.
Arguments Log {R} s v k.
Arguments Do {R} c k.

Fixpoint bind {A B : Type} (p : Prog A) (f : A -> Prog B) : Prog B :=
  match p with
  | Ret a => f a
  | Throw e => Throw e
  | Log s v k => Log s v (bind k f)
  | Do c k => Do c (fun o => bind (k o) f)
  end.

(** [try { p } catch (err) { h err }]. *)
Fixpoint try_catch {R : Type} (p : Prog R) (h : JsValue -> Prog R) : Prog R :=
  match p with
  | Ret r => Ret r
  | Throw e => h e
  | Log s v k => Log s v (try_catch k h)
  | Do c k => Do c (fun o => try_catch (k o) h)
  end.

(** An expression evaluated in place. *)
Definition eval {A : Type} (o : Completion A) : Prog A :=
  match o with
  | Returned a => Ret a
  | Thrown e => Throw e
  end.

(** A call whose exception, if any, propagates. *)
Definition call (c : Call) : Prog (Ans c) := Do c eval.

Definition console_log (v : JsValue) : Prog unit := Log Stdout v (Ret tt).
Definition console_error (v : JsValue) : Prog unit := Log Stderr v (Ret tt).

Declare Scope prog_scope.
Delimit Scope prog_scope with prog.
Notation "x <- p ;; q" := (bind p (fun x => q))
  (at level 61, p at next level, right associativity) : prog_scope.
Notation "p ;; q" := (bind p (fun _ => q))
  (at level 61, right associativity) : prog_scope.
Local Open Scope prog_scope.

(** *** Running a program *)

(** The world outside the handler: what each call answers. *)
Definition World : Type := forall c : Call, Completion (Ans c).

Inductive Event : Type :=
| Console (s : Stream) (v : JsValue)
| Called (c : Call).

(** What a program does, in order. *)
Fixpoint trace {R : Type} (w : World) (p : Prog R) : list Event :=
  match p with
  | Ret _ | Throw _ => []
  | Log s v k => Console s v :: trace w k
  | Do c k => Called c :: trace w (k (w c))
  end.

(** How a program ends. *)
Fixpoint outcome {R : Type} (w : World) (p : Prog R) : Completion R :=
  match p with
  | Ret r => Returned r
  | Throw e => Thrown e
  | Log _ _ k => outcome w k
  | Do c k => outcome w (k (w c))
  end.

Definition run {R : Type} (w : World) (p : Prog R)
  : list Event * Completion R :=
  (trace w p, outcome w p).

Definition calls (t : list Event) : list Call :=
  flat_map (fun ev => match ev with Called c => [c] | Console _ _ => [] end) t.

(** *** The handler *)

(** The [body] variable: the parsed JSON, or, when parsing failed, the
    response that the [.catch] callback returned. *)
Inductive Body : Type :=
| Parsed (v : JsValue)
| Caught (r : NextResponse).

(** [body.k]. A [NextResponse] has no property of the names read. *)
Definition body_get (b : Body) (k : string) : Completion JsValue :=
  match b with
  | Parsed v => get v k
  | Caught _ => Returned Undefined
  end.

Definition bad_request : NextResponse :=
  NextResponse.json (Obj [("error", Str "bad request")]) 400.

Definition user_not_found : NextResponse :=
  NextResponse.json (Obj [("error", Str "user not found")]) 404.

Definition api_key_not_found : NextResponse :=
  NextResponse.json (Obj [("error", Str "api key not found")]) 500.

Section Handler.

Variable contract : ContractJson.
Variable env : ProcessEnv.

(** [await request.json().catch((err) => { ... })]. *)
Definition read_body (request : Request) : Prog Body :=
  match json request with
  | Returned v => Ret (Parsed v)
  | Thrown err => console_error err ;; Ret (Caught bad_request)
  end.

(** The body of the [try] statement. *)
Definition try_block (body : Body) : Prog NextResponse :=
  orgId <- eval (body_get body "orgId") ;;
  user <- call (getUser orgId) ;;
  match user with
  | None => Ret user_not_found
  | Some user =>
    orgId <- eval (body_get body "orgId") ;;
    apiKey <- call (getLatestApiKey orgId) ;;
    match apiKey with
    | None => Ret api_key_not_found
    | Some apiKey =>
      if negb (truthy (or_undefined (deferredActionDigest apiKey)))
      then Ret api_key_not_found
      else
        transport <- call (alchemy (NEXT_PUBLIC_ALCHEMY_API_KEY env)) ;;
        walletClient <-
          call (createWalletClient (address user) gensynTestnet transport) ;;
        signer <- call (new_WalletClientSigner walletClient "wallet") ;;
        account <-
          call (createModularAccountV2 transport gensynTestnet signer
                  (deferredActionDigest apiKey)) ;;
        client <-
          call (createAlchemySmartAccountClient account gensynTestnet
                  transport (NEXT_PUBLIC_PAYMASTER_POLICY_ID env)) ;;
        let contractAdrr := SMART_CONTRACT_ADDRESS env in
        console_log (or_undefined contractAdrr) ;;
        peerId <- eval (body_get body "peerId") ;;
        data <-
          call (encodeFunctionData (abi contract) "registerPeer" [peerId]) ;;
        result <- call (sendUserOperation client contractAdrr data) ;;
        Ret (NextResponse.json (Obj [("hash", Str (hash result))]) 200)
    end
  end.

(** The body of the [catch] clause. *)
Definition catch_block (err : JsValue) : Prog NextResponse :=
  console_error err ;;
  let error := err in
  name <- eval (get error "name") ;;
  if negb (strict_eq_str name "HttpRequestError")
  then
    Ret (NextResponse.json
           (Obj [("error", Str "An unexpected error occurred");
                 ("original", error)])
           500)
  else
    details <- eval (get error "details") ;;
    parsedDetailsResult <- call (safeParse details) ;;
    match parsedDetailsResult with
    | success_false parseError =>
      original <- eval (get error "details") ;;
      Ret (NextResponse.json
             (Obj [("error",
                    Str "An unexpected error occurred getting request details");
                   ("parseError", parseError);
                   ("original", original)])
             500)
    | success_true parsed =>
      let revertData := revertData (data parsed) in
      decodedError <- call (decodeErrorResult revertData (abi contract)) ;;
      metaMessages <- eval (get error "metaMessages") ;;
      Ret (NextResponse.json
             (Obj [("error", Str (errorName decodedError));
                   ("metaMessages", metaMessages)])
             400)
    end.

(** What follows the binding of [body]. *)
Definition respond (body : Body) : Prog NextResponse :=
  orgId <- eval (body_get body "orgId") ;;
  if negb (truthy orgId)
  then Ret bad_request
  else
    orgId <- eval (body_get body "orgId") ;;
    console_log orgId ;;
    try_catch (try_block body) catch_block.

Definition POST (request : Request) : Prog NextResponse :=
  body <- read_body request ;;
  respond body.

End Handler.

(** *** What the claims speak of *)

(** Status 200 and a body with exactly the field [hash]. *)
Definition is_success (r : NextResponse) : Prop :=
  status r = 200%Z /\ keys (body r) = ["hash"].

(** Status 400, 404 or 500 and a body with a field [error]. *)
Definition is_failure (r : NextResponse) : Prop :=
  (status r = 400%Z \/ status r = 404%Z \/ status r = 500%Z)
  /\ In "error" (keys (body r)).

(** The steps the specification names, in its order. *)
Inductive Step : Type :=
| CreateTransport
| CreateWalletClient
| CreateModularAccount
| CreateSmartAccountClient
| SendUserOperation
| DecodeErrors.

Definition step_of (c : Call) : option Step :=
  match c with
  | alchemy _ => Some CreateTransport
  | createWalletClient _ _ _ => Some CreateWalletClient
  | createModularAccountV2 _ _ _ _ => Some CreateModularAccount
  | createAlchemySmartAccountClient _ _ _ _ => Some CreateSmartAccountClient
  | sendUserOperation _ _ _ => Some SendUserOperation
  | decodeErrorResult _ _ => Some DecodeErrors
  | _ => None
  end.

Definition steps (t : list Event) : list Step :=
  flat_map (fun c => match step_of c with Some s => [s] | None => [] end)
           (calls t).

Definition pipeline : list Step :=
  [CreateTransport; CreateWalletClient; CreateModularAccount;
   CreateSmartAccountClient; SendUserOperation].

Definition threw (w : World) (c : Call) : Prop :=
  exists e, w c = Thrown e.

(** The calls of the revert-reason path. *)
Definition revert_path (c : Call) : bool :=
  match c with
  | safeParse _ | decodeErrorResult _ _ => true
  | _ => false
  end.

Definition unexpected_error (original : JsValue) : NextResponse :=
  NextResponse.json
    (Obj [("error", Str "An unexpected error occurred");
          ("original", original)])
    500.

(** The arguments of a call are the values the handler was given:
    [orgId] and [peerId] of the body [b], the stored user's [address] and
    the API key's [deferredActionDigest] as the store returned them. *)
Definition forwarded (contract : ContractJson) (w : World) (b : JsValue)
    (c : Call) : Prop :=
  match c with
  | getUser orgId | getLatestApiKey orgId => orgId = field b "orgId"
  | encodeFunctionData abi' functionName args =>
      abi' = abi contract
      /\ functionName = "registerPeer"
      /\ args = [field b "peerId"]
  | createWalletClient account _ _ =>
      exists user,
        w (getUser (field b "orgId")) = Returned (Some user)
        /\ account = address user
  | createModularAccountV2 _ _ _ deferredAction =>
      exists apiKey,
        w (getLatestApiKey (field b "orgId")) = Returned (Some apiKey)
        /\ deferredAction = deferredActionDigest apiKey
  | _ => True
  end.

(** The calls that carry the identifiers are made, each as soon as the
    calls before it have returned: [getUser] with the body's [orgId];
    for a known user, [getLatestApiKey] with the same [orgId]; for a
    usable key, [createWalletClient] with the user's [address] and
    [createModularAccountV2] with the key's [deferredActionDigest];
    then [encodeFunctionData] with the body's [peerId] as the only
    argument of "registerPeer", and [sendUserOperation] with the encoded
    data. *)
Definition delivered (contract : ContractJson) (env : ProcessEnv) (w : World)
    (b : JsValue) (t : list Event) : Prop :=
  In (Called (getUser (field b "orgId"))) t
  /\ forall user,
       w (getUser (field b "orgId")) = Returned (Some user) ->
       In (Called (getLatestApiKey (field b "orgId"))) t
       /\ forall key transport,
            w (getLatestApiKey (field b "orgId")) = Returned (Some key) ->
            truthy (or_undefined (deferredActionDigest key)) = true ->
            w (alchemy (NEXT_PUBLIC_ALCHEMY_API_KEY env)) = Returned transport ->
            In (Called (createWalletClient (address user) gensynTestnet
                          transport)) t
            /\ forall walletClient signer,
                 w (createWalletClient (address user) gensynTestnet transport)
                 = Returned walletClient ->
                 w (new_WalletClientSigner walletClient "wallet")
                 = Returned signer ->
                 In (Called (createModularAccountV2 transport gensynTestnet
                               signer (deferredActionDigest key))) t
                 /\ forall account client,
                      w (createModularAccountV2 transport gensynTestnet signer
                           (deferredActionDigest key))
                      = Returned account ->
                      w (createAlchemySmartAccountClient account gensynTestnet
                           transport (NEXT_PUBLIC_PAYMASTER_POLICY_ID env))
                      = Returned client ->
                      In (Called (encodeFunctionData (abi contract)
                                    "registerPeer" [field b "peerId"])) t
                      /\ forall data,
                           w (encodeFunctionData (abi contract) "registerPeer"
                                [field b "peerId"])
                           = Returned data ->
                           In (Called (sendUserOperation client
                                         (SMART_CONTRACT_ADDRESS env) data)) t.

(** *** Further vocabulary *)

(** The function a call goes to. *)
Inductive Callee : Type :=
| to_getUser
| to_getLatestApiKey
| to_alchemy
| to_createWalletClient
| to_new_WalletClientSigner
| to_createModularAccountV2
| to_createAlchemySmartAccountClient
| to_encodeFunctionData
| to_sendUserOperation
| to_safeParse
| to_decodeErrorResult.

Definition callee (c : Call) : Callee :=
  match c with
  | getUser _ => to_getUser
  | getLatestApiKey _ => to_getLatestApiKey
  | alchemy _ => to_alchemy
  | createWalletClient _ _ _ => to_createWalletClient
  | new_WalletClientSigner _ _ => to_new_WalletClientSigner
  | createModularAccountV2 _ _ _ _ => to_createModularAccountV2
  | createAlchemySmartAccountClient _ _ _ _ =>
      to_createAlchemySmartAccountClient
  | encodeFunctionData _ _ _ => to_encodeFunctionData
  | sendUserOperation _ _ _ => to_sendUserOperation
  | safeParse _ => to_safeParse
  | decodeErrorResult _ _ => to_decodeErrorResult
  end.

(** The calls into the account-kit, aa-sdk and viem that build the
    account and submit the user operation. *)
Definition is_sdk (c : Call) : bool :=
  match c with
  | getUser _ | getLatestApiKey _ | safeParse _ | decodeErrorResult _ _ =>
      false
  | _ => true
  end.

(** Where the arguments of a call come from: an environment variable,
    or what an earlier call returned. *)
Definition wired (contract : ContractJson) (env : ProcessEnv) (w : World)
    (c : Call) : Prop :=
  match c with
  | alchemy apiKey => apiKey = NEXT_PUBLIC_ALCHEMY_API_KEY env
  | createWalletClient _ _ transport =>
      w (alchemy (NEXT_PUBLIC_ALCHEMY_API_KEY env)) = Returned transport
  | new_WalletClientSigner walletClient signerType =>
      signerType = "wallet"
      /\ exists account transport,
           w (createWalletClient account gensynTestnet transport)
           = Returned walletClient
  | createModularAccountV2 transport _ signer _ =>
      w (alchemy (NEXT_PUBLIC_ALCHEMY_API_KEY env)) = Returned transport
      /\ exists walletClient,
           w (new_WalletClientSigner walletClient "wallet") = Returned signer
  | createAlchemySmartAccountClient account _ transport policyId =>
      policyId = NEXT_PUBLIC_PAYMASTER_POLICY_ID env
      /\ w (alchemy (NEXT_PUBLIC_ALCHEMY_API_KEY env)) = Returned transport
      /\ exists transport' signer deferredAction,
           w (createModularAccountV2 transport' gensynTestnet signer
                deferredAction)
           = Returned account
  | sendUserOperation client target data =>
      target = SMART_CONTRACT_ADDRESS env
      /\ (exists account transport,
            w (createAlchemySmartAccountClient account gensynTestnet transport
                 (NEXT_PUBLIC_PAYMASTER_POLICY_ID env))
            = Returned client)
      /\ exists args,
           w (encodeFunctionData (abi contract) "registerPeer" args)
           = Returned data
  | decodeErrorResult data abi' =>
      abi' = abi contract
      /\ exists details parsed,
           w (safeParse details) = Returned (success_true parsed)
           /\ data = revertData (Route.data parsed)
  | safeParse details =>
      exists c' e,
        w c' = Thrown e
        /\ field e "name" = Str "HttpRequestError"
        /\ details = field e "details"
  | _ => True
  end.

(** The three messages of a 500 response. *)
Definition messages_500 : list string :=
  ["api key not found";
   "An unexpected error occurred";
   "An unexpected error occurred getting request details"].

(** *** Sample data *)

(** A world that answers every call of a kind alike. *)
Record Scenario : Type := {
  on_getUser : Completion (option UserData);
  on_getLatestApiKey : Completion (option UserApiKey);
  on_alchemy : Completion AlchemyTransport;
  on_createWalletClient : Completion WalletClient;
  on_new_WalletClientSigner : Completion WalletClientSigner;
  on_createModularAccountV2 : Completion ModularAccountV2;
  on_createAlchemySmartAccountClient : Completion SmartAccountClient;
  on_encodeFunctionData : Completion Hex;
  on_sendUserOperation : Completion SendUserOperationResult;
  on_safeParse : Completion SafeParseResult;
  on_decodeErrorResult : Completion DecodedError
}.

Definition world_of (s : Scenario) : World :=
  fun c =>
    match c return Completion (Ans c) with
    | getUser _ => on_getUser s
    | getLatestApiKey _ => on_getLatestApiKey s
    | alchemy _ => on_alchemy s
    | createWalletClient _ _ _ => on_createWalletClient s
    | new_WalletClientSigner _ _ => on_new_WalletClientSigner s
    | createModularAccountV2 _ _ _ _ => on_createModularAccountV2 s
    | createAlchemySmartAccountClient _ _ _ _ =>
        on_createAlchemySmartAccountClient s
    | encodeFunctionData _ _ _ => on_encodeFunctionData s
    | sendUserOperation _ _ _ => on_sendUserOperation s
    | safeParse _ => on_safeParse s
    | decodeErrorResult _ _ => on_decodeErrorResult s
    end.

Module Sample.

Definition contract : ContractJson :=
  {| abi :=
       Arr [Obj [("type", Str "function"); ("name", Str "registerPeer")];
            Obj [("type", Str "error");
                 ("name", Str "PeerIdAlreadyRegistered")]] |}.

Definition env : ProcessEnv :=
  {| NEXT_PUBLIC_ALCHEMY_API_KEY := Some "alchemy-key";
     NEXT_PUBLIC_PAYMASTER_POLICY_ID := Some "policy";
     SMART_CONTRACT_ADDRESS := Some "0x2fC68a233EF9E9509f034DD551FF90A79a0B8F82" |}.

Definition user : UserData := {| address := "0x00000000000000000000000000000000000000aa" |}.

Definition apiKey : UserApiKey := {| deferredActionDigest := Some "0x01" |}.

(** The answers that vary between the examples; every other call
    returns. *)
Definition scenario (found : Completion (option UserData))
    (sent : Completion SendUserOperationResult)
    (parsed : Completion SafeParseResult)
    (decoded : Completion DecodedError) : Scenario :=
  {| on_getUser := found;
     on_getLatestApiKey := Returned (Some apiKey);
     on_alchemy := Returned {| transport_id := 1 |};
     on_createWalletClient := Returned {| wallet_client_id := 2 |};
     on_new_WalletClientSigner := Returned {| signer_id := 3 |};
     on_createModularAccountV2 := Returned {| account_id := 4 |};
     on_createAlchemySmartAccountClient := Returned {| client_id := 5 |};
     on_encodeFunctionData := Returned "0xc0ffee";
     on_sendUserOperation := sent;
     on_safeParse := parsed;
     on_decodeErrorResult := decoded |}.

Definition no_match : SafeParseResult :=
  success_false (new_Error "ZodError" "Invalid input").

Definition peer_already_registered : DecodedError :=
  {| errorName := "PeerIdAlreadyRegistered" |}.

(** Every call returns. *)
Definition all_well : Scenario :=
  scenario (Returned (Some user)) (Returned {| hash := "0xabc" |})
           (Returned no_match) (Returned peer_already_registered).

(** The store has no such user. *)
Definition unknown_user : Scenario :=
  scenario (Returned None) (Returned {| hash := "0xabc" |})
           (Returned no_match) (Returned peer_already_registered).

(** Sending the user operation fails below HTTP. *)
Definition fetch_failed : JsValue := new_Error "TypeError" "fetch failed".

Definition unreachable : Scenario :=
  scenario (Returned (Some user)) (Thrown fetch_failed)
           (Returned no_match) (Returned peer_already_registered).

Definition quoted (s : string) : string :=
  let q := String (Ascii.ascii_of_nat 34) EmptyString in q ++ s ++ q.

Definition details (revertData : Hex) : string :=
  "{" ++ quoted "code" ++ ":3," ++ quoted "message" ++ ":"
  ++ quoted "execution reverted" ++ "," ++ quoted "data" ++ ":{"
  ++ quoted "revertData" ++ ":" ++ quoted revertData ++ "}}".

(** The error of a reverted user operation, as the bundler's HTTP
    transport reports it. *)
Definition http_request_error (revertData : Hex) : JsValue :=
  Obj [("name", Str "HttpRequestError");
       ("details", Str (details revertData));
       ("metaMessages", Arr [Str "Status: 400"])].

Definition revert_details (revertData : Hex) : ErrorDetails :=
  {| data := {| Route.revertData := revertData |} |}.

(** The user operation reverts with [revertData]; [decoded] is what
    decoding it against the ABI comes to. *)
Definition reverted (revertData : Hex) (decoded : Completion DecodedError)
  : Scenario :=
  scenario (Returned (Some user)) (Thrown (http_request_error revertData))
           (Returned (success_true (revert_details revertData))) decoded.

(** Revert data of the contract's own error. *)
Definition own_error : Hex := "0x1a2b3c4d".

(** Revert data of an error that the contract ABI does not list. *)
Definition foreign_error : Hex := "0x220266b6".

(** The revert data matches no error of the ABI. *)
Definition signature_not_found : JsValue :=
  new_Error "AbiErrorSignatureNotFoundError"
            "Encoded error signature not found on ABI.".

Definition register_body : JsValue :=
  Obj [("orgId", Str "org-1"); ("peerId", Str "QmPeer")].

Definition register : Request := {| json := Returned register_body |}.

Definition syntax_error : JsValue :=
  new_Error "SyntaxError" "Unexpected end of JSON input".

Definition invalid_json : Request := {| json := Thrown syntax_error |}.

Definition null_body : Request := {| json := Returned Null |}.

Definition no_orgId : Request :=
  {| json := Returned (Obj [("peerId", Str "QmPeer")]) |}.

(** The latest key of the user has no [deferredActionDigest]. *)
Definition keyless : Scenario :=
  {| on_getUser := Returned (Some user);
     on_getLatestApiKey := Returned (Some {| deferredActionDigest := None |});
     on_alchemy := Returned {| transport_id := 1 |};
     on_createWalletClient := Returned {| wallet_client_id := 2 |};
     on_new_WalletClientSigner := Returned {| signer_id := 3 |};
     on_createModularAccountV2 := Returned {| account_id := 4 |};
     on_createAlchemySmartAccountClient := Returned {| client_id := 5 |};
     on_encodeFunctionData := Returned "0xc0ffee";
     on_sendUserOperation := Returned {| hash := "0xabc" |};
     on_safeParse := Returned no_match;
     on_decodeErrorResult := Returned peer_already_registered |}.

(** Sending the user operation rejects with [null]. *)
Definition throws_null : Scenario :=
  scenario (Returned (Some user)) (Thrown Null)
           (Returned no_match) (Returned peer_already_registered).

(** A registration whose body holds more than the two fields read. *)
Definition register_with_more : Request :=
  {| json :=
       Returned (Obj [("note", Str "hello"); ("orgId", Str "org-1");
                      ("peerId", Str "QmPeer"); ("extra", Arr [Null])]) |}.

End Sample.

End Route.

(** ** Properties of the route handler *)

Module RouteFacts.

Import Route.
Local Open Scope prog_scope.

(** *** Values *)

Example zero_is_falsy : truthy (Num 0%float) = false.
Proof. reflexivity. Qed.

Example nan_is_falsy : truthy (Num nan) = false.
Proof. reflexivity. Qed.

Example empty_string_is_falsy : truthy (Str "") = false.
Proof. reflexivity. Qed.

Example empty_object_is_truthy : truthy (Obj []) = true.
Proof. reflexivity. Qed.

Example absent_field_is_undefined :
  get (Obj [("peerId", Str "QmPeer")]) "orgId" = Returned Undefined.
Proof. reflexivity. Qed.

Example null_has_no_fields :
  get Null "orgId"
  = Thrown (TypeError "Cannot read properties of null (reading 'orgId')").
Proof. reflexivity. Qed.

(** *** Running composed programs *)

Section Running.

Variable w : World.

Lemma outcome_bind (A B : Type) (p : Prog A) (f : A -> Prog B) :
  outcome w (bind p f) =
  match outcome w p with
  | Returned a => outcome w (f a)
  | Thrown e => Thrown e
  end.
Proof.
  induction p as [a | e | s v k IH | c k IH]; cbn; auto.
Qed.

Lemma trace_bind (A B : Type) (p : Prog A) (f : A -> Prog B) :
  trace w (bind p f) =
  (trace w p ++
   match outcome w p with
   | Returned a => trace w (f a)
   | Thrown _ => []
   end)%list.
Proof.
  induction p as [a | e | s v k IH | c k IH]; cbn; auto.
  - now rewrite IH.
  - now rewrite IH.
Qed.

Lemma outcome_try_catch (R : Type) (p : Prog R) (h : JsValue -> Prog R) :
  outcome w (try_catch p h) =
  match outcome w p with
  | Returned r => Returned r
  | Thrown e => outcome w (h e)
  end.
Proof.
  induction p as [a | e | s v k IH | c k IH]; cbn; auto.
Qed.

Lemma trace_try_catch (R : Type) (p : Prog R) (h : JsValue -> Prog R) :
  trace w (try_catch p h) =
  (trace w p ++
   match outcome w p with
   | Returned _ => []
   | Thrown e => trace w (h e)
   end)%list.
Proof.
  induction p as [a | e | s v k IH | c k IH]; cbn; auto.
  - now rewrite IH.
  - now rewrite IH.
Qed.

End Running.

Lemma truthy_field_not_nullish (v : JsValue) (k : string) :
  truthy (field v k) = true -> nullish v = false.
Proof.
  destruct v; cbn; congruence.
Qed.

Lemma get_not_nullish (v : JsValue) (k : string) :
  nullish v = false -> get v k = Returned (field v k).
Proof.
  unfold get. now intros ->.
Qed.

(** *** Bad requests *)

Section BadRequests.

Variable contract : ContractJson.
Variable env : ProcessEnv.
Variable w : World.

(** C9. When the request body is not valid JSON, the [.catch] callback
    logs the error and its response becomes the value of [body]; reading
    [orgId] off any response gives [undefined], so the check that follows
    answers 400 with [{error: "bad request"}], whatever that response
    was; no call is made. *)
Theorem POST_invalid_json (request : Request) (err : JsValue) :
  json request = Thrown err ->
  run w (read_body request)
    = ([Console Stderr err], Returned (Caught bad_request))
  /\ (forall r : NextResponse,
        body_get (Caught r) "orgId" = Returned Undefined
        /\ run w (respond contract env (Caught r))
           = ([], Returned bad_request))
  /\ run w (POST contract env request)
     = ([Console Stderr err], Returned bad_request).
Proof.
  intros H. unfold run, POST, read_body. rewrite H. cbn.
  repeat split.
Qed.

(** X15. For every parsed body other than [null] whose [orgId] is
    absent, empty or otherwise falsy (a body that is no object, such as
    5 or [[]], among them), the handler answers 400 with
    [{error: "bad request"}] and does nothing else: nothing is logged
    and no call is made. *)
Theorem POST_falsy_orgId (request : Request) (b : JsValue) :
  json request = Returned b ->
  nullish b = false ->
  truthy (field b "orgId") = false ->
  run w (POST contract env request) = ([], Returned bad_request).
Proof.
  intros Hb Hn Hf. unfold run, POST, read_body, respond. rewrite Hb. cbn.
  rewrite !get_not_nullish by exact Hn. cbn. rewrite Hf. reflexivity.
Qed.

(** C4. When the body's [orgId] is truthy and [getUser] returns nothing
    for it, the handler answers 404 with [{error: "user not found"}];
    it has logged the [orgId] and called [getUser], and nothing else. *)
Theorem POST_user_not_found (request : Request) (b : JsValue) :
  json request = Returned b ->
  truthy (field b "orgId") = true ->
  w (getUser (field b "orgId")) = Returned None ->
  run w (POST contract env request)
    = ([Console Stdout (field b "orgId");
        Called (getUser (field b "orgId"))],
       Returned user_not_found).
Proof.
  intros Hb Ht Hu. unfold run, POST, read_body, respond, try_block.
  rewrite Hb. cbn.
  rewrite !get_not_nullish by exact (truthy_field_not_nullish _ _ Ht). cbn.
  rewrite Ht. cbn. rewrite Hu. reflexivity.
Qed.

End BadRequests.

(** *** Symbolic execution of the handler *)

Lemma get_Returned (v : JsValue) (k : string) (x : JsValue) :
  get v k = Returned x -> nullish v = false /\ x = field v k.
Proof.
  unfold get. destruct (nullish v); [discriminate|].
  intros H. injection H as <-. auto.
Qed.

Lemma get_Thrown (v : JsValue) (k : string) (e : JsValue) :
  get v k = Thrown e -> nullish v = true.
Proof.
  unfold get. destruct (nullish v); [reflexivity | discriminate].
Qed.

Lemma strict_eq_str_true (v : JsValue) (s : string) :
  strict_eq_str v s = true -> v = Str s.
Proof.
  destruct v; cbn; try discriminate.
  intros H. apply String.eqb_eq in H. now subst.
Qed.

(** What the course of a program that has not finished depends on next:
    a property read, the answer to a call, or a test. *)
Ltac pending p :=
  lazymatch p with
  | bind ?q _ => pending q
  | try_catch ?q _ => pending q
  | eval ?o => o
  | (if ?c then _ else _) => c
  | match ?x with _ => _ end => x
  end.

Ltac fork :=
  match goal with
  | |- context [outcome _ ?p] => let x := pending p in destruct x eqn:?
  | |- context [trace _ ?p] => let x := pending p in destruct x eqn:?
  end.

Ltac unfold_handler :=
  unfold run, POST, read_body, respond, try_block, catch_block in *.

(** Runs the handler along every course it can take. *)
Ltac execute := unfold_handler; cbn; repeat (fork; cbn).

(** Turns what is known of property reads into facts on the value read. *)
Ltac read_facts :=
  repeat match goal with
  | H : get _ _ = Returned _ |- _ =>
      apply get_Returned in H; destruct H as [? ?]
  | H : get _ _ = Thrown _ |- _ => apply get_Thrown in H
  | H : negb _ = true |- _ => apply negb_true_iff in H
  | H : negb _ = false |- _ => apply negb_false_iff in H
  end.

(** *** The responses of the handler *)

Section Responses.

Variable contract : ContractJson.
Variable env : ProcessEnv.
Variable w : World.

(** X14. Every response the handler returns has status 200 and a body
    with exactly the field [hash], or a status among 400, 404 and 500
    and a body with a field [error]; no other status is ever returned.
    A response with status 200 carries the hash that a
    [sendUserOperation] call of this request returned. *)
Theorem POST_response_shape (request : Request) (r : NextResponse) :
  outcome w (POST contract env request) = Returned r ->
  (is_success r \/ is_failure r)
  /\ (status r = 200%Z ->
      exists client target data result,
        In (Called (sendUserOperation client target data))
           (trace w (POST contract env request))
        /\ w (sendUserOperation client target data) = Returned result
        /\ body r = Obj [("hash", Str (hash result))]).
Proof.
  unfold is_success, is_failure.
  execute; intros H; inversion H; subst; cbn;
    (split; [auto 8 | intros E; try discriminate E]).
  do 4 eexists. split; [ | split; [eassumption | reflexivity]].
  auto 20.
Qed.

End Responses.

(** *** Errors thrown in the [try] statement *)

Section Errors.

Variable contract : ContractJson.
Variable env : ProcessEnv.
Variable w : World.

(** With a truthy [orgId] the handler logs it and enters the [try]
    statement. *)
Lemma POST_enters_try (request : Request) (b : JsValue) :
  json request = Returned b ->
  truthy (field b "orgId") = true ->
  POST contract env request
  = Log Stdout (field b "orgId")
      (try_catch (try_block contract env (Parsed b))
                 (catch_block contract)).
Proof.
  intros Hb Ht. unfold POST, read_body, respond. rewrite Hb.
  cbn -[try_block catch_block].
  rewrite !get_not_nullish by exact (truthy_field_not_nullish _ _ Ht).
  cbn -[try_block catch_block]. rewrite Ht. reflexivity.
Qed.

(** Otherwise it makes no call at all. *)
Lemma POST_stops_early (request : Request) :
  (forall b, json request = Returned b -> truthy (field b "orgId") = false) ->
  calls (trace w (POST contract env request)) = [].
Proof.
  intros H. unfold POST, read_body, respond.
  destruct (json request) as [b | err]; cbn.
  - specialize (H b eq_refl). unfold get.
    destruct (nullish b); cbn; [reflexivity|]. now rewrite H.
  - reflexivity.
Qed.

(** C3, amended. If the [try] statement throws an error whose [name]
    is "HttpRequestError", the handler hands the error's [details] to
    the schema. When they match and decoding the extracted
    [revertData] against the contract ABI returns, the handler answers
    400 with the decoded error name and the error's [metaMessages];
    when they do not match, it answers 500 with
    "An unexpected error occurred getting request details", the parse
    error and the details. *)
Theorem POST_http_request_error (request : Request) (b : JsValue)
    (t : list Event) (e : JsValue) :
  json request = Returned b ->
  truthy (field b "orgId") = true ->
  run w (try_block contract env (Parsed b)) = (t, Thrown e) ->
  get e "name" = Returned (Str "HttpRequestError") ->
  (forall parsed decoded,
      w (safeParse (field e "details")) = Returned (success_true parsed) ->
      w (decodeErrorResult (revertData (data parsed)) (abi contract))
      = Returned decoded ->
      run w (POST contract env request)
      = ((Console Stdout (field b "orgId") :: t ++
          [Console Stderr e;
           Called (safeParse (field e "details"));
           Called (decodeErrorResult (revertData (data parsed))
                                     (abi contract))])%list,
         Returned
           (NextResponse.json
              (Obj [("error", Str (errorName decoded));
                    ("metaMessages", field e "metaMessages")])
              400)))
  /\ (forall parseError,
        w (safeParse (field e "details"))
        = Returned (success_false parseError) ->
        run w (POST contract env request)
        = ((Console Stdout (field b "orgId") :: t ++
            [Console Stderr e; Called (safeParse (field e "details"))])%list,
           Returned
             (NextResponse.json
                (Obj [("error",
                       Str "An unexpected error occurred getting request details");
                      ("parseError", parseError);
                      ("original", field e "details")])
                500))).
Proof.
  intros Hb Ht Hrun Hn. rewrite (POST_enters_try request b Hb Ht).
  unfold run in *.
  apply pair_equal_spec in Hrun. destruct Hrun as [Htr Hout].
  destruct (get_Returned _ _ _ Hn) as [Hnn _].
  cbn [trace outcome].
  rewrite trace_try_catch, outcome_try_catch, Hout, Htr.
  unfold catch_block. cbn. rewrite Hn.
  rewrite !get_not_nullish by exact Hnn. cbn.
  split.
  - intros parsed decoded Hp Hd. rewrite Hp. cbn. rewrite Hd. cbn.
    reflexivity.
  - intros parseError Hp. rewrite Hp. cbn. reflexivity.
Qed.

End Errors.

(** *** What is passed on, and in which order *)

(** The part of a concrete trace before and after an event. *)
Ltac split_at x l :=
  lazymatch l with
  | x :: ?rest => constr:((@nil Event, rest))
  | ?y :: ?rest =>
      let p := split_at x rest in
      lazymatch p with
      | (?before, ?after) => constr:((y :: before, after))
      end
  end.

Ltac in_cases H :=
  repeat (destruct H as [H | H]; [try discriminate H|]); try contradiction.

(** Exhibits, in a concrete trace, a call that threw before the event
    that [H] speaks of. *)
Ltac after_failure w H :=
  match goal with
  | E : w ?c = Thrown _ |- exists before c' after, ?t = _ /\ _ =>
      let p := split_at (Called c) t in
      lazymatch p with
      | (?before, ?after) =>
          exists before, c, after;
          split; [reflexivity | split; [eexists; exact E | ]];
          solve [in_cases H; cbn; auto 20]
      end
  end.

Section Forwarding.

Variable contract : ContractJson.
Variable env : ProcessEnv.

(** C6. The identifiers reach the calls unchanged. Every call the
    handler makes receives them as given: [getUser] and
    [getLatestApiKey] the body's [orgId]; [encodeFunctionData] the
    contract ABI, the function name "registerPeer" and the body's
    [peerId] as the only argument; [createWalletClient] the [address] of
    the user that [getUser] returned; [createModularAccountV2] the
    [deferredActionDigest] of the key that [getLatestApiKey] returned.
    And these calls are made: with a truthy [orgId] the handler calls
    [getUser]; for a known user, [getLatestApiKey]; for a usable key,
    once the calls before have returned, [createWalletClient],
    [createModularAccountV2], [encodeFunctionData] and
    [sendUserOperation] with the encoded data. *)
Theorem POST_forwards (w : World) (request : Request) (b : JsValue) :
  json request = Returned b ->
  (forall c,
      In (Called c) (trace w (POST contract env request)) ->
      forwarded contract w b c)
  /\ (truthy (field b "orgId") = true ->
      delivered contract env w b (trace w (POST contract env request))).
Proof.
  intros Hb. split.
  - unfold_handler. rewrite Hb. cbn.
    repeat (fork; cbn); intros c H; in_cases H;
      repeat match goal with
      | E : Called _ = Called _ |- _ => injection E as <-
      end;
      read_facts; subst; cbn; eauto.
  - intros Ht. rewrite (POST_enters_try contract env request b Hb Ht).
    unfold delivered, try_block. cbn.
    rewrite !get_not_nullish by exact (truthy_field_not_nullish _ _ Ht).
    cbn. split; [auto|].
    intros user Hu. rewrite Hu. cbn. split; [auto|].
    intros key transport Hk Hd Ha. rewrite Hk. cbn. rewrite Hd. cbn.
    rewrite Ha. cbn. split; [auto 10|].
    intros walletClient signer Hw Hs. rewrite Hw. cbn. rewrite Hs. cbn.
    split; [auto 10|].
    intros account client Hm Hc. rewrite Hm. cbn. rewrite Hc. cbn.
    split; [auto 20|].
    intros data Hdata. rewrite Hdata. cbn. auto 20.
Qed.

(** C7. When the handler answers 200, the steps it has performed are
    exactly: create transport, create wallet client, create modular
    account, create smart-account client, send user operation, in this
    order. On every course the steps performed are an initial part of
    this sequence, followed at most by error decoding; and error
    decoding has a call that threw before it. *)
Theorem POST_order (w : World) (request : Request) :
  (forall r,
      outcome w (POST contract env request) = Returned r ->
      status r = 200%Z ->
      steps (trace w (POST contract env request)) = pipeline)
  /\ (exists n,
        steps (trace w (POST contract env request)) = firstn n pipeline
        \/ steps (trace w (POST contract env request))
           = (firstn n pipeline ++ [DecodeErrors])%list)
  /\ (forall data abi,
        In (Called (decodeErrorResult data abi))
           (trace w (POST contract env request)) ->
        exists before c after,
          trace w (POST contract env request)
          = (before ++ Called c :: after)%list
          /\ threw w c
          /\ In (Called (decodeErrorResult data abi)) after).
Proof.
  execute; (split; [ | split]);
    try (intros r H; inversion H; subst; cbn; intros E;
         first [discriminate E | reflexivity]);
    try solve [ exists 0; cbn; auto | exists 1; cbn; auto
              | exists 2; cbn; auto | exists 3; cbn; auto
              | exists 4; cbn; auto | exists 5; cbn; auto ];
    intros data abi H;
    try solve [in_cases H];
    try solve [exfalso; read_facts; congruence];
    after_failure w H.
Qed.

End Forwarding.

(** *** Further properties of the handler *)

(** Closes a course on which a call threw although none may. *)
Ltac no_throw w Hnt :=
  match goal with
  | E : w ?c = Thrown ?e |- _ =>
      exfalso; apply (Hnt c e); [cbn; auto 20 | exact E]
  end.

Ltac contradictory :=
  exfalso; read_facts; subst;
  first
    [ congruence
    | repeat match goal with
      | H : truthy (field _ _) = true |- _ =>
          apply truthy_field_not_nullish in H
      end;
      congruence ].

(** Settles which keys are written by cases on the values that may be
    [undefined]. *)
Ltac written :=
  repeat match goal with
  | |- context [is_undefined ?v] => is_var v; destruct v; cbn
  end;
  try (cbn in *; discriminate); auto 12.

Section Further.

Variable contract : ContractJson.
Variable env : ProcessEnv.
Variable w : World.

(** X1. For a known user whose latest API key is missing, or has no
    [deferredActionDigest] or an empty one, the handler answers 500 with
    [{error: "api key not found"}] after the two store lookups, and
    makes no SDK call. *)
Theorem POST_api_key_not_found (request : Request) (b : JsValue)
    (found : UserData) :
  json request = Returned b ->
  truthy (field b "orgId") = true ->
  w (getUser (field b "orgId")) = Returned (Some found) ->
  (w (getLatestApiKey (field b "orgId")) = Returned None
   \/ exists key,
        w (getLatestApiKey (field b "orgId")) = Returned (Some key)
        /\ truthy (or_undefined (deferredActionDigest key)) = false) ->
  run w (POST contract env request)
  = ([Console Stdout (field b "orgId");
      Called (getUser (field b "orgId"));
      Called (getLatestApiKey (field b "orgId"))],
     Returned api_key_not_found).
Proof.
  intros Hb Ht Hu Hk. rewrite (POST_enters_try contract env request b Hb Ht).
  unfold run, try_block. cbn.
  rewrite !get_not_nullish by exact (truthy_field_not_nullish _ _ Ht). cbn.
  rewrite Hu. cbn.
  destruct Hk as [Hk | [key [Hk Hd]]]; rewrite Hk; cbn.
  - reflexivity.
  - rewrite Hd. reflexivity.
Qed.

(** X2. For a known user with a usable API key, if none of the calls the
    handler makes throws, it answers 200 with the hash that
    [sendUserOperation] returned, having gone through the five steps. *)
Theorem POST_succeeds (request : Request) (b : JsValue) (found : UserData)
    (key : UserApiKey) :
  json request = Returned b ->
  truthy (field b "orgId") = true ->
  w (getUser (field b "orgId")) = Returned (Some found) ->
  w (getLatestApiKey (field b "orgId")) = Returned (Some key) ->
  truthy (or_undefined (deferredActionDigest key)) = true ->
  (forall c e,
      In (Called c) (trace w (POST contract env request)) ->
      w c <> Thrown e) ->
  exists client data result,
    w (sendUserOperation client (SMART_CONTRACT_ADDRESS env) data)
    = Returned result
    /\ outcome w (POST contract env request)
       = Returned (NextResponse.json (Obj [("hash", Str (hash result))]) 200)
    /\ steps (trace w (POST contract env request)) = pipeline.
Proof.
  intros Hb Ht Hu Hk Hd. unfold_handler. rewrite Hb. cbn.
  repeat (fork; cbn); intros Hnt;
    try solve [no_throw w Hnt]; try solve [contradictory].
  do 3 eexists. split; [eassumption | split; reflexivity].
Qed.

(** X3. Every call receives what the calls before it returned and what
    the environment holds: the transport that [alchemy] returned goes to
    the wallet client, the modular account and the smart-account client;
    the signer is of type "wallet" and wraps the wallet client; the user
    operation is sent through the client that was created, to
    [SMART_CONTRACT_ADDRESS], with the data [encodeFunctionData]
    returned; [decodeErrorResult] receives the [revertData] that
    [safeParse] extracted from the [details] of the error thrown. *)
Theorem POST_wires (request : Request) (c : Call) :
  In (Called c) (trace w (POST contract env request)) ->
  wired contract env w c.
Proof.
  revert c. execute; intros c H; in_cases H;
    repeat match goal with
    | E : Called _ = Called _ |- _ => injection E as <-
    end;
    cbn; trivial;
    try solve [contradictory];
    read_facts; subst;
    repeat match goal with
    | E : strict_eq_str _ _ = true |- _ => apply strict_eq_str_true in E
    end;
    eauto 12.
Qed.

(** X4. The handler calls each outside function at most once per
    request: nothing is looked up, built, sent or decoded twice. *)
Theorem POST_calls_once (request : Request) :
  NoDup (map callee (calls (trace w (POST contract env request)))).
Proof.
  execute;
    repeat (constructor; [cbn; intuition discriminate|]);
    constructor.
Qed.

(** X5. A 404 comes only from the user lookup: the body was parsed, its
    [orgId] is truthy, [getUser] returned nothing for it, the response is
    [{error: "user not found"}] and nothing was called after [getUser]. *)
Theorem POST_404_only_unknown_user (request : Request) (r : NextResponse) :
  outcome w (POST contract env request) = Returned r ->
  status r = 404%Z ->
  r = user_not_found
  /\ exists b,
       json request = Returned b
       /\ truthy (field b "orgId") = true
       /\ w (getUser (field b "orgId")) = Returned None
       /\ calls (trace w (POST contract env request))
          = [getUser (field b "orgId")].
Proof.
  execute; intros H; inversion H; subst; cbn; intros E;
    try discriminate E.
  split; [reflexivity|]. read_facts; subst.
  eexists. repeat split; eauto.
Qed.

(** X6. A 400 is either the bad-request response, sent before any call
    was made, or carries as [error] the name that a [decodeErrorResult]
    call of this request returned; what is written of that body is
    [error] alone, or [error] and [metaMessages]. *)
Theorem POST_400_cases (request : Request) (r : NextResponse) :
  outcome w (POST contract env request) = Returned r ->
  status r = 400%Z ->
  (r = bad_request /\ calls (trace w (POST contract env request)) = [])
  \/ exists data abi decoded,
       In (Called (decodeErrorResult data abi))
          (trace w (POST contract env request))
       /\ w (decodeErrorResult data abi) = Returned decoded
       /\ field (body r) "error" = Str (errorName decoded)
       /\ (written_keys (body r) = ["error"]
           \/ written_keys (body r) = ["error"; "metaMessages"]).
Proof.
  execute; intros H; inversion H; subst; cbn; intros E;
    try discriminate E;
    try (left; split; reflexivity);
    right; do 3 eexists;
    (split; [ | split; [eassumption | split; [reflexivity | written]]]);
    auto 20.
Qed.

(** X7. Every response other than a 200 carries its [error] as a
    string, and on a 500 the string is one of three fixed messages. *)
Theorem POST_error_is_string (request : Request) (r : NextResponse) :
  outcome w (POST contract env request) = Returned r ->
  status r <> 200%Z ->
  exists message,
    field (body r) "error" = Str message
    /\ (status r = 500%Z -> In message messages_500).
Proof.
  execute; intros H; inversion H; subst; cbn; intros E;
    try (exfalso; apply E; reflexivity);
    eexists; (split; [reflexivity | intros S; try discriminate S; auto]).
Qed.

(** X8. An exception of [safeParse] or of [decodeErrorResult] is not
    caught: whenever one of them is called and throws, the handler
    throws that same value and returns no response. *)
Theorem POST_decoding_errors_escape (request : Request) (c : Call)
    (e : JsValue) :
  In (Called c) (trace w (POST contract env request)) ->
  revert_path c = true ->
  w c = Thrown e ->
  outcome w (POST contract env request) = Thrown e.
Proof.
  revert c e. execute; intros called thrown H; in_cases H;
    repeat match goal with
    | E : Called _ = Called _ |- _ => injection E as <-
    end;
    cbn; intros R; try discriminate R; intros T; congruence.
Qed.

(** X9. No SDK call is made for a user the store does not know or a key
    it cannot use: whenever a call other than the store lookups and the
    error decoding is made, the body's [orgId] is truthy, [getUser]
    returned a user for it and [getLatestApiKey] a key with a non-empty
    [deferredActionDigest]. *)
Theorem POST_sdk_gated (request : Request) (c : Call) :
  In (Called c) (trace w (POST contract env request)) ->
  is_sdk c = true ->
  exists b found key,
    json request = Returned b
    /\ truthy (field b "orgId") = true
    /\ w (getUser (field b "orgId")) = Returned (Some found)
    /\ w (getLatestApiKey (field b "orgId")) = Returned (Some key)
    /\ truthy (or_undefined (deferredActionDigest key)) = true.
Proof.
  revert c. execute; intros c H; in_cases H;
    repeat match goal with
    | E : Called _ = Called _ |- _ => injection E as <-
    end;
    cbn; intros S; try discriminate S;
    try solve [contradictory];
    read_facts; subst;
    do 3 eexists; repeat split; eauto.
Qed.

(** X10. What the handler writes to the console: to the first stream,
    the body's [orgId] and the [SMART_CONTRACT_ADDRESS]; to the second,
    the error of [request.json()] and the error a call threw; nothing
    else is written. *)
Theorem POST_logs (request : Request) (s : Stream) (v : JsValue) :
  In (Console s v) (trace w (POST contract env request)) ->
  match s with
  | Stdout =>
      (exists b, json request = Returned b /\ v = field b "orgId")
      \/ v = or_undefined (SMART_CONTRACT_ADDRESS env)
  | Stderr =>
      json request = Thrown v
      \/ exists c,
           In (Called c) (trace w (POST contract env request))
           /\ w c = Thrown v
  end.
Proof.
  revert s v. execute; intros s v H; in_cases H;
    repeat match goal with
    | E : Console _ _ = Console _ _ |- _ => injection E as <- <-
    end;
    try solve [contradictory];
    try solve [left; read_facts; subst; eauto];
    try solve [right; reflexivity];
    right; eexists; (split; [ | eassumption]); cbn; auto 20.
Qed.

(** X11. Of a parsed body the handler reads [orgId] and [peerId] and
    nothing else: two requests whose bodies agree on these two fields
    make the handler do the same and answer the same, whatever else the
    bodies hold. *)
Theorem POST_ignores_other_fields (request1 request2 : Request)
    (b1 b2 : JsValue) :
  json request1 = Returned b1 ->
  json request2 = Returned b2 ->
  nullish b1 = false ->
  nullish b2 = false ->
  field b1 "orgId" = field b2 "orgId" ->
  field b1 "peerId" = field b2 "peerId" ->
  run w (POST contract env request1) = run w (POST contract env request2).
Proof.
  intros H1 H2 N1 N2 Ho Hp.
  assert (E : POST contract env request1 = POST contract env request2).
  { unfold POST, read_body, respond, try_block. rewrite H1, H2.
    cbn -[catch_block].
    rewrite !(get_not_nullish b1) by exact N1.
    rewrite !(get_not_nullish b2) by exact N2.
    rewrite Ho, Hp. reflexivity. }
  now rewrite E.
Qed.

(** X12. The key is looked up only for a user the store knows:
    whenever [getLatestApiKey] is called, [getUser] has returned a user
    for the same [orgId]. *)
Theorem POST_key_lookup_after_user (request : Request) (orgId : JsValue) :
  In (Called (getLatestApiKey orgId)) (trace w (POST contract env request)) ->
  exists found, w (getUser orgId) = Returned (Some found).
Proof.
  execute; intros H; in_cases H;
    repeat match goal with
    | E : Called _ = Called _ |- _ => injection E as <-
    end;
    eauto.
Qed.

(** X13. What is written of a response body follows its status:
    [hash] alone on a 200; [error] alone on a 404; [error] alone, or
    with [metaMessages], on a 400; on a 500 [error] alone, or with one
    or both of [parseError] and [original]. *)
Theorem POST_body_fields (request : Request) (r : NextResponse) :
  outcome w (POST contract env request) = Returned r ->
  (status r = 200%Z /\ written_keys (body r) = ["hash"])
  \/ (status r = 404%Z /\ written_keys (body r) = ["error"])
  \/ (status r = 400%Z
      /\ (written_keys (body r) = ["error"]
          \/ written_keys (body r) = ["error"; "metaMessages"]))
  \/ (status r = 500%Z
      /\ (written_keys (body r) = ["error"]
          \/ written_keys (body r) = ["error"; "original"]
          \/ written_keys (body r) = ["error"; "parseError"]
          \/ written_keys (body r) = ["error"; "parseError"; "original"])).
Proof.
  execute; intros H; inversion H; subst; cbn; written.
Qed.

End Further.

(** *** Instances and counterexamples *)

Import Sample.

(** A registration in a world where every call returns: the trace and
    the response. *)
Example POST_registers :
  run (world_of all_well) (POST contract env register)
  = ([Console Stdout (Str "org-1");
      Called (getUser (Str "org-1"));
      Called (getLatestApiKey (Str "org-1"));
      Called (alchemy (Some "alchemy-key"));
      Called (createWalletClient (address user) gensynTestnet
                {| transport_id := 1 |});
      Called (new_WalletClientSigner {| wallet_client_id := 2 |} "wallet");
      Called (createModularAccountV2 {| transport_id := 1 |} gensynTestnet
                {| signer_id := 3 |} (Some "0x01"));
      Called (createAlchemySmartAccountClient {| account_id := 4 |}
                gensynTestnet {| transport_id := 1 |} (Some "policy"));
      Console Stdout (or_undefined (SMART_CONTRACT_ADDRESS env));
      Called (encodeFunctionData (abi contract) "registerPeer"
                [Str "QmPeer"]);
      Called (sendUserOperation {| client_id := 5 |}
                (SMART_CONTRACT_ADDRESS env) "0xc0ffee")],
     Returned (NextResponse.json (Obj [("hash", Str "0xabc")]) 200)).
Proof. reflexivity. Qed.

Lemma POST_invalid_json_witness :
  json invalid_json = Thrown syntax_error
  /\ run (world_of all_well) (POST contract env invalid_json)
     = ([Console Stderr syntax_error], Returned bad_request).
Proof.
  split; [reflexivity|].
  exact (proj2 (proj2 (POST_invalid_json contract env (world_of all_well)
                         invalid_json syntax_error eq_refl))).
Defined.

Lemma POST_falsy_orgId_witness :
  truthy (field (Obj [("peerId", Str "QmPeer")]) "orgId") = false
  /\ run (world_of all_well) (POST contract env no_orgId)
     = ([], Returned bad_request).
Proof.
  split; [reflexivity|].
  exact (POST_falsy_orgId contract env (world_of all_well) no_orgId
           (Obj [("peerId", Str "QmPeer")]) eq_refl eq_refl eq_refl).
Defined.

(** C5. The body [null] has no [orgId], yet the handler does not
    answer 400: reading [orgId] off it throws a TypeError, before
    anything is logged or called. *)
Lemma POST_null_body_not_bad_request :
  json null_body = Returned Null
  /\ truthy (field Null "orgId") = false
  /\ run (world_of all_well) (POST contract env null_body)
     = ([], Thrown (TypeError "Cannot read properties of null (reading 'orgId')"))
  /\ outcome (world_of all_well) (POST contract env null_body)
     <> Returned bad_request.
Proof.
  repeat split. cbn. discriminate.
Qed.

Lemma POST_user_not_found_witness :
  world_of unknown_user (getUser (Str "org-1")) = Returned None
  /\ run (world_of unknown_user) (POST contract env register)
     = ([Console Stdout (Str "org-1"); Called (getUser (Str "org-1"))],
        Returned user_not_found).
Proof.
  split; [reflexivity|].
  exact (POST_user_not_found contract env (world_of unknown_user) register
           register_body eq_refl eq_refl eq_refl).
Defined.

(** C1. On the body [null], and on a revert whose data matches no error
    of the ABI, the handler throws and returns no response at all:
    neither a 200 with [hash] nor a failure with [error]. *)
Lemma POST_rejects_without_response :
  (outcome (world_of all_well) (POST contract env null_body)
   = Thrown (TypeError "Cannot read properties of null (reading 'orgId')")
   /\ ~ exists r,
         outcome (world_of all_well) (POST contract env null_body)
         = Returned r
         /\ (is_success r \/ is_failure r))
  /\ (outcome (world_of (reverted foreign_error (Thrown signature_not_found)))
         (POST contract env register)
       = Thrown signature_not_found
       /\ ~ exists r,
             outcome (world_of (reverted foreign_error (Thrown signature_not_found)))
               (POST contract env register)
             = Returned r
             /\ (is_success r \/ is_failure r)).
Proof.
  repeat split; intros [r [H _]]; cbn in H; discriminate H.
Qed.

Lemma all_well_never_throws (c : Call) (e : JsValue) :
  world_of all_well c <> Thrown e.
Proof.
  destruct c; cbn; discriminate.
Qed.

Lemma POST_response_shape_witness :
  (is_success (NextResponse.json (Obj [("hash", Str "0xabc")]) 200)
   \/ is_failure (NextResponse.json (Obj [("hash", Str "0xabc")]) 200))
  /\ exists client target data result,
       In (Called (sendUserOperation client target data))
          (trace (world_of all_well) (POST contract env register))
       /\ world_of all_well (sendUserOperation client target data)
          = Returned result
       /\ Obj [("hash", Str "0xabc")] = Obj [("hash", Str (hash result))].
Proof.
  destruct (POST_response_shape contract env (world_of all_well) register
              (NextResponse.json (Obj [("hash", Str "0xabc")]) 200) eq_refl)
    as [Hshape Hhash].
  split; [exact Hshape | exact (Hhash eq_refl)].
Defined.

(** C2. An error with a name other than "HttpRequestError" is answered
    with the 500 that attaches it; but when what a call throws is
    [null], the catch clause cannot read its [name], and the handler
    throws a TypeError instead of answering 500. *)
Lemma POST_thrown_null_rejects :
  outcome (world_of unreachable) (POST contract env register)
  = Returned (unexpected_error fetch_failed)
  /\ world_of throws_null
       (sendUserOperation {| client_id := 5 |} (SMART_CONTRACT_ADDRESS env)
          "0xc0ffee")
     = Thrown Null
  /\ outcome (world_of throws_null) (POST contract env register)
     = Thrown (TypeError "Cannot read properties of null (reading 'name')").
Proof.
  repeat split.
Qed.

Lemma POST_http_request_error_witness :
  outcome (world_of (reverted own_error (Returned peer_already_registered)))
    (POST contract env register)
  = Returned
      (NextResponse.json
         (Obj [("error", Str "PeerIdAlreadyRegistered");
               ("metaMessages", Arr [Str "Status: 400"])])
         400).
Proof.
  pose proof
    (proj1 (POST_http_request_error contract env
              (world_of (reverted own_error (Returned peer_already_registered)))
              register register_body _ (http_request_error own_error)
              eq_refl eq_refl eq_refl eq_refl)
           (revert_details own_error) peer_already_registered
           eq_refl eq_refl) as H.
  apply pair_equal_spec in H. exact (proj2 H).
Defined.

(** C3, as stated, fails when the revert data matches no error of the
    ABI: the error is an HttpRequestError whose details match the schema,
    yet [decodeErrorResult] throws and the handler returns no response. *)
Lemma POST_undecodable_revert_rejects :
  let w := world_of (reverted foreign_error (Thrown signature_not_found)) in
  outcome w (try_block contract env (Parsed register_body))
  = Thrown (http_request_error foreign_error)
  /\ get (http_request_error foreign_error) "name"
     = Returned (Str "HttpRequestError")
  /\ w (safeParse (field (http_request_error foreign_error) "details"))
     = Returned (success_true (revert_details foreign_error))
  /\ outcome w (POST contract env register) = Thrown signature_not_found
  /\ ~ exists r,
         outcome w (POST contract env register) = Returned r
         /\ status r = 400%Z.
Proof.
  repeat split. intros [r [H _]]. cbn in H. discriminate H.
Qed.

Lemma POST_forwards_witness :
  forwarded contract (world_of all_well) register_body
    (createWalletClient (address user) gensynTestnet {| transport_id := 1 |})
  /\ forwarded contract (world_of all_well) register_body
       (encodeFunctionData (abi contract) "registerPeer" [Str "QmPeer"])
  /\ delivered contract env (world_of all_well) register_body
       (trace (world_of all_well) (POST contract env register)).
Proof.
  destruct (POST_forwards contract env (world_of all_well) register
              register_body eq_refl) as [Hsafe Hlive].
  split; [apply Hsafe; cbn; auto 20 | split].
  - apply Hsafe. cbn. auto 20.
  - exact (Hlive eq_refl).
Defined.

Lemma POST_order_witness :
  steps (trace (world_of all_well) (POST contract env register)) = pipeline.
Proof.
  exact (proj1 (POST_order contract env (world_of all_well) register)
           _ eq_refl eq_refl).
Defined.

(** *** Instances of the further properties *)

Lemma POST_api_key_not_found_witness :
  run (world_of keyless) (POST contract env register)
  = ([Console Stdout (Str "org-1");
      Called (getUser (Str "org-1"));
      Called (getLatestApiKey (Str "org-1"))],
     Returned api_key_not_found).
Proof.
  apply (POST_api_key_not_found contract env (world_of keyless) register
           register_body user eq_refl eq_refl eq_refl).
  right. exists {| deferredActionDigest := None |}. split; reflexivity.
Defined.

Lemma POST_succeeds_witness :
  exists client data result,
    world_of all_well
      (sendUserOperation client (SMART_CONTRACT_ADDRESS env) data)
    = Returned result
    /\ outcome (world_of all_well) (POST contract env register)
       = Returned (NextResponse.json (Obj [("hash", Str (hash result))]) 200)
    /\ steps (trace (world_of all_well) (POST contract env register))
       = pipeline.
Proof.
  apply (POST_succeeds contract env (world_of all_well) register
           register_body user apiKey eq_refl eq_refl eq_refl eq_refl eq_refl).
  intros c e _. apply all_well_never_throws.
Defined.

Lemma POST_wires_witness :
  wired contract env (world_of all_well)
    (sendUserOperation {| client_id := 5 |} (SMART_CONTRACT_ADDRESS env)
       "0xc0ffee").
Proof.
  apply (POST_wires contract env (world_of all_well) register).
  cbn. auto 20.
Defined.

Lemma POST_404_only_unknown_user_witness :
  user_not_found = user_not_found
  /\ exists b,
       json register = Returned b
       /\ truthy (field b "orgId") = true
       /\ world_of unknown_user (getUser (field b "orgId")) = Returned None
       /\ calls (trace (world_of unknown_user) (POST contract env register))
          = [getUser (field b "orgId")].
Proof.
  exact (POST_404_only_unknown_user contract env (world_of unknown_user)
           register user_not_found eq_refl eq_refl).
Defined.

Lemma POST_400_cases_witness :
  exists data abi decoded,
    In (Called (decodeErrorResult data abi))
       (trace (world_of (reverted own_error (Returned peer_already_registered)))
          (POST contract env register))
    /\ world_of (reverted own_error (Returned peer_already_registered))
         (decodeErrorResult data abi)
       = Returned decoded
    /\ Str "PeerIdAlreadyRegistered" = Str (errorName decoded).
Proof.
  destruct (POST_400_cases contract env
              (world_of (reverted own_error (Returned peer_already_registered)))
              register
              (NextResponse.json
                 (Obj [("error", Str "PeerIdAlreadyRegistered");
                       ("metaMessages", Arr [Str "Status: 400"])])
                 400)
              eq_refl eq_refl) as [[H _] | [data [abi [decoded [H1 [H2 [H3 _]]]]]]].
  - discriminate H.
  - exists data, abi, decoded. repeat split; assumption.
Defined.

Lemma POST_error_is_string_witness :
  exists message,
    field (body (unexpected_error fetch_failed)) "error" = Str message
    /\ (status (unexpected_error fetch_failed) = 500%Z ->
        In message messages_500).
Proof.
  apply (POST_error_is_string contract env (world_of unreachable) register
           (unexpected_error fetch_failed) eq_refl).
  discriminate.
Defined.

Lemma POST_decoding_errors_escape_witness :
  outcome (world_of (reverted foreign_error (Thrown signature_not_found)))
    (POST contract env register)
  = Thrown signature_not_found.
Proof.
  apply (POST_decoding_errors_escape contract env
           (world_of (reverted foreign_error (Thrown signature_not_found)))
           register
           (decodeErrorResult foreign_error (abi contract))).
  - cbn. auto 20.
  - reflexivity.
  - reflexivity.
Defined.

Lemma POST_sdk_gated_witness :
  exists b found key,
    json register = Returned b
    /\ truthy (field b "orgId") = true
    /\ world_of all_well (getUser (field b "orgId")) = Returned (Some found)
    /\ world_of all_well (getLatestApiKey (field b "orgId"))
       = Returned (Some key)
    /\ truthy (or_undefined (deferredActionDigest key)) = true.
Proof.
  apply (POST_sdk_gated contract env (world_of all_well) register
           (alchemy (Some "alchemy-key"))).
  - cbn. auto 20.
  - reflexivity.
Defined.

Lemma POST_logs_witness :
  json register = Thrown fetch_failed
  \/ exists c,
       In (Called c) (trace (world_of unreachable) (POST contract env register))
       /\ world_of unreachable c = Thrown fetch_failed.
Proof.
  apply (POST_logs contract env (world_of unreachable) register Stderr
           fetch_failed).
  cbn. auto 20.
Defined.

Lemma POST_ignores_other_fields_witness :
  run (world_of all_well) (POST contract env register)
  = run (world_of all_well) (POST contract env register_with_more).
Proof.
  exact (POST_ignores_other_fields contract env (world_of all_well)
           register register_with_more _ _
           eq_refl eq_refl eq_refl eq_refl eq_refl eq_refl).
Defined.

Lemma POST_key_lookup_after_user_witness :
  exists found, world_of all_well (getUser (Str "org-1")) = Returned (Some found).
Proof.
  apply (POST_key_lookup_after_user contract env (world_of all_well) register).
  cbn. auto 20.
Defined.

Lemma POST_body_fields_witness :
  written_keys (Obj [("hash", Str "0xabc")]) = ["hash"].
Proof.
  destruct (POST_body_fields contract env (world_of all_well) register
              (NextResponse.json (Obj [("hash", Str "0xabc")]) 200) eq_refl)
    as [[_ H] | [[H _] | [[H _] | [H _]]]];
    [exact H | discriminate H | discriminate H | discriminate H].
Defined.

End RouteFacts.

(** ** Properties of [createSignerForUser] *)

Module SignerFacts.

Import Signer.

Section WithAddressCheck.

Variable isAddress : string -> bool.

Lemma createSignerForUser_returns (user : UserData)
    (transport : AlchemyTransport) :
  isAddress (Db.address user) = true ->
  exists signer, createSignerForUser isAddress user transport = Returned signer.
Proof.
  intros H. unfold createSignerForUser, toAccount. cbn. rewrite H.
  eexists. reflexivity.
Qed.

(** C10. Every signer that [createSignerForUser] returns stands for the
    given user's address, unchanged, and each of its signing operations,
    [signMessage], [signTransaction] and [signTypedData], rejects with
    Error("Not implemented") on every input. *)
Theorem createSignerForUser_not_implemented (user : UserData)
    (transport : AlchemyTransport) (signer : WalletClientSigner) :
  createSignerForUser isAddress user transport = Returned signer ->
  signer_address signer = Db.address user
  /\ forall input : list JsValue,
      signMessage (account (inner signer)) input
      = Thrown (new_Error "Error" "Not implemented")
      /\ signTransaction (account (inner signer)) input
         = Thrown (new_Error "Error" "Not implemented")
      /\ signTypedData (account (inner signer)) input
         = Thrown (new_Error "Error" "Not implemented").
Proof.
  unfold createSignerForUser, toAccount. cbn.
  destruct (isAddress (Db.address user)); [|discriminate].
  cbn. intros H. injection H as <-. cbn. auto.
Qed.

End WithAddressCheck.

(** An instance: the signer made for a user with a well-formed address. *)
Lemma createSignerForUser_not_implemented_witness :
  exists signer,
    createSignerForUser sample_isAddress sample_user {| transport_id := 1 |}
    = Returned signer
    /\ signer_address signer = Db.address sample_user
    /\ signMessage (account (inner signer)) [Str "hello"]
       = Thrown (new_Error "Error" "Not implemented").
Proof.
  eexists. split; [reflexivity|].
  pose proof (createSignerForUser_not_implemented sample_isAddress
                sample_user {| transport_id := 1 |} _ eq_refl) as [Ha Hs].
  split; [exact Ha | exact (proj1 (Hs [Str "hello"]))].
Defined.

End SignerFacts.
